(** * The call-rate governor of the Gemini analyser panel

    A shallow embedding of [class RateLimiter] and of the places where
    [GeminiAnalyzerPanel] builds and consults it
    (src/components/SimplePanel.tsx), followed by the properties the
    specification states about it.

    Numbers.  Every quantity the class computes with is an integer number
    of milliseconds or a call count: [Date.now()] yields integer
    milliseconds and the only operations are [+], [-], [++] and
    comparisons, all of which are exact on integer-valued doubles far
    beyond any timestamp.  They are modelled as [Z].

    Clock.  Each method reads [Date.now()] exactly once, on entry; the
    embedding passes that reading as the argument [now]. *)

From Stdlib Require Import ZArith Bool List Lia.
From Stdlib Require Import String Ascii DecimalString.
Import ListNotations.
Open Scope Z_scope.

(** ** Instance state *)

(** The three private fields and the two private constructor parameter
    properties of [RateLimiter]. *)
Record RateLimiter : Type := mkRateLimiter {
  lastCallTime : Z;
  callsInWindow : Z;
  windowStartTime : Z;
  maxCallsPerMinute : Z;
  minTimeBetweenCalls : Z
}.

(** ** Methods as state transformers *)

(** A method body runs against [this] and yields a value together with the
    instance as the body left it. *)
Definition Method (A : Type) : Type := RateLimiter -> A * RateLimiter.

Definition ret {A : Type} (a : A) : Method A := fun this => (a, this).

Definition bind {A B : Type} (m : Method A) (k : A -> Method B) : Method B :=
  fun this => let (a, this') := m this in k a this'.

Declare Scope method_scope.
Delimit Scope method_scope with method.
Notation "x <- m ;; k" := (bind m (fun x => k))
  (at level 61, m at next level, right associativity) : method_scope.
Notation "m ;; k" := (bind m (fun _ => k))
  (at level 61, right associativity) : method_scope.
Open Scope method_scope.

(** [this.f] read. *)
Definition this {A : Type} (f : RateLimiter -> A) : Method A :=
  fun s => (f s, s).

(** [this.lastCallTime = v]. *)
Definition set_lastCallTime (v : Z) : Method unit := fun s =>
  (tt, mkRateLimiter v (callsInWindow s) (windowStartTime s)
         (maxCallsPerMinute s) (minTimeBetweenCalls s)).

(** [this.callsInWindow = v]. *)
Definition set_callsInWindow (v : Z) : Method unit := fun s =>
  (tt, mkRateLimiter (lastCallTime s) v (windowStartTime s)
         (maxCallsPerMinute s) (minTimeBetweenCalls s)).

(** [this.windowStartTime = v]. *)
Definition set_windowStartTime (v : Z) : Method unit := fun s =>
  (tt, mkRateLimiter (lastCallTime s) (callsInWindow s) v
         (maxCallsPerMinute s) (minTimeBetweenCalls s)).

(** An [if] statement without [else]. *)
Definition when (b : bool) (body : Method unit) : Method unit :=
  if b then body else ret tt.

(** [constructor(maxCallsPerMinute = 10, minTimeBetweenCalls = 2000)]: a
    parameter left [undefined] ([None]) takes its default; the field
    initialisers set the counters to 0 and the body stamps the window
    with the construction time. *)
Definition new_RateLimiter (maxCalls minTime : option Z) (now : Z)
  : RateLimiter :=
  mkRateLimiter 0 0 now
    (match maxCalls with Some m => m | None => 10 end)
    (match minTime with Some m => m | None => 2000 end).

(** [canMakeCall()]. *)
Definition canMakeCall (now : Z) : Method bool :=
  ws <- this windowStartTime ;;
  when (now - ws >? 60000)
    (set_callsInWindow 0 ;;
     set_windowStartTime now) ;;
  last <- this lastCallTime ;;
  let timeSinceLastCall := now - last in
  calls <- this callsInWindow ;;
  maxCalls <- this maxCallsPerMinute ;;
  minTime <- this minTimeBetweenCalls ;;
  ret ((calls <? maxCalls) && (timeSinceLastCall >=? minTime)).

(** [recordCall()]. *)
Definition recordCall (now : Z) : Method unit :=
  set_lastCallTime now ;;
  calls <- this callsInWindow ;;
  set_callsInWindow (calls + 1).

(** [getTimeUntilNextCallAllowed()]. *)
Definition getTimeUntilNextCallAllowed (now : Z) : Method Z :=
  last <- this lastCallTime ;;
  let timeSinceLastCall := now - last in
  calls <- this callsInWindow ;;
  maxCalls <- this maxCallsPerMinute ;;
  if calls >=? maxCalls then
    ws <- this windowStartTime ;;
    ret (ws + 60000 - now)
  else
    minTime <- this minTimeBetweenCalls ;;
    if timeSinceLastCall <? minTime then
      ret (minTime - timeSinceLastCall)
    else
      ret 0.

(** ** Histories of an instance *)

(** One method invocation, with the clock reading it made. *)
Inductive call : Type :=
| CanMakeCall (now : Z)
| RecordCall (now : Z)
| GetTimeUntilNextCallAllowed (now : Z).

Definition call_time (c : call) : Z :=
  match c with
  | CanMakeCall now | RecordCall now | GetTimeUntilNextCallAllowed now => now
  end.

(** The instance after one invocation (the returned value dropped). *)
Definition exec (c : call) (s : RateLimiter) : RateLimiter :=
  match c with
  | CanMakeCall now => snd (canMakeCall now s)
  | RecordCall now => snd (recordCall now s)
  | GetTimeUntilNextCallAllowed now => snd (getTimeUntilNextCallAllowed now s)
  end.

(** The instance after a sequence of invocations, oldest first. *)
Fixpoint run (cs : list call) (s : RateLimiter) : RateLimiter :=
  match cs with
  | [] => s
  | c :: cs' => run cs' (exec c s)
  end.

(** States an instance can be in: freshly constructed, or one invocation
    later than such a state.  No order is imposed on the clock readings,
    so whatever holds of every [reachable] state holds in particular along
    every chronological history. *)
Inductive reachable : RateLimiter -> Prop :=
| reach_new (maxCalls minTime : option Z) (now : Z) :
    reachable (new_RateLimiter maxCalls minTime now)
| reach_exec (c : call) (s : RateLimiter) :
    reachable s -> reachable (exec c s).

(** A history whose clock readings never go back, starting no earlier
    than [t0]. *)
Fixpoint chronological (t0 : Z) (cs : list call) : bool :=
  match cs with
  | [] => true
  | c :: cs' => (t0 <=? call_time c) && chronological (call_time c) cs'
  end.

(** Number of [recordCall] invocations in a history. *)
Fixpoint recorded (cs : list call) : Z :=
  match cs with
  | [] => 0
  | RecordCall _ :: cs' => 1 + recorded cs'
  | _ :: cs' => recorded cs'
  end.

(** [n] consecutive [canMakeCall()] invocations that all read the same
    clock value: the booleans returned, oldest first, and the instance
    left behind. *)
Fixpoint canMakeCall_times (n : nat) (now : Z) (s : RateLimiter)
  : list bool * RateLimiter :=
  match n with
  | O => ([], s)
  | S n' =>
      let (b, s') := canMakeCall now s in
      let (bs, s'') := canMakeCall_times n' now s' in
      (b :: bs, s'')
  end.

(** ** The panel's use of the limiter *)

(** A numeric panel option as the component receives it: the field may be
    absent, or hold [NaN] (a cleared number input), or hold a number. *)
Inductive jsnumber : Type :=
| JSUndefined
| JSNaN
| JSNum (z : Z).

(** JavaScript truthiness of such a value. *)
Definition truthy (v : jsnumber) : bool :=
  match v with
  | JSNum z => negb (z =? 0)
  | JSUndefined | JSNaN => false
  end.

(** [v || d] for a numeric literal [d]: the left operand when it is
    truthy (then it is a number), the literal otherwise. *)
Definition js_or (v : jsnumber) (d : Z) : Z :=
  match v with
  | JSNum z => if truthy v then z else d
  | JSUndefined | JSNaN => d
  end.

(** The two fields of [GeminiAnalyzerOptions] the limiter is built from
    (declared by [addNumberInput] in module.ts). *)
Record GeminiAnalyzerOptions : Type := mkOptions {
  opt_maxCallsPerMinute : jsnumber;
  opt_minTimeBetweenCalls : jsnumber
}.

(** The argument of [useRef] at mount. *)
Definition panel_initial_limiter (options : GeminiAnalyzerOptions) (now : Z)
  : RateLimiter :=
  new_RateLimiter
    (Some (js_or (opt_maxCallsPerMinute options) 10))
    (Some (js_or (opt_minTimeBetweenCalls options) 2000))
    now.

(** The body of the [useEffect] that runs when either option changes. *)
Definition panel_updated_limiter (options : GeminiAnalyzerOptions) (now : Z)
  : RateLimiter :=
  new_RateLimiter
    (Some (js_or (opt_maxCallsPerMinute options) 10))
    (Some (js_or (opt_minTimeBetweenCalls options) 2000))
    now.

(** What the rate-limit part of [onButtonClick] decides. *)
Inductive click_outcome : Type :=
| RateLimited (waitTime : Z)
| Proceeds.

(** The rate-limit part of [onButtonClick]: the guard reads the clock at
    [t1]; whichever method runs next reads it at [t2]. *)
Definition onButtonClick (t1 t2 : Z) : Method click_outcome :=
  allowed <- canMakeCall t1 ;;
  if negb allowed then
    waitTime <- getTimeUntilNextCallAllowed t2 ;;
    ret (RateLimited waitTime)
  else
    recordCall t2 ;;
    ret Proceeds.

(** ** Click histories *)

(** [Math.ceil(a / b)] for an integer [a] and a positive integer [b]. *)
Definition Math_ceil_div (a b : Z) : Z := - ((- a) / b).


(** The clicks of a history that got past the guard, each with its guard
    reading and the reading at which its call was recorded. *)
Fixpoint admitted (cs : list (Z * Z)) (s : RateLimiter) : list (Z * Z) :=
  match cs with
  | [] => []
  | (t1, t2) :: cs' =>
      let (o, s') := onButtonClick t1 t2 s in
      match o with
      | Proceeds => (t1, t2) :: admitted cs' s'
      | RateLimited _ => admitted cs' s'
      end
  end.

(** Every guard reading in the list is at least [minTime] after the
    reading at which the call before it was recorded, the first one
    measured from [last]. *)
Fixpoint well_spaced (last minTime : Z) (l : list (Z * Z)) : Prop :=
  match l with
  | [] => True
  | (guard, rec) :: l' => minTime <= guard - last /\ well_spaced rec minTime l'
  end.


(** ** The request to the model API *)

(** A value caught by a [catch] clause, by the three observations the
    handlers make of it: [error instanceof Error], [error.message] and
    [String(error)]. *)
Record thrown : Type := mkThrown {
  instanceof_Error : bool;
  message : string;
  to_String : string
}.

(** How an awaited external call ends. *)
Inductive outcome (A : Type) : Type :=
| Returns (a : A)
| Throws (e : thrown).
Arguments Returns {A} a.
Arguments Throws {A} e.

(** The generative-AI client, from building it with the API key to reading
    [result.response.text()]: given the key, the model name, the prompt
    text and the inline image data ([None] for [undefined]) it returns the
    text or throws. *)
Definition Gemini : Type :=
  string -> string -> string -> option string -> outcome string.

(** The double-quote character. *)
Definition dq : string := String "034"%char EmptyString.

(** [s.split(sep)] for a one-character separator. *)
Fixpoint split (sep : ascii) (s : string) : list string :=
  match s with
  | EmptyString => [EmptyString]
  | String c s' =>
      if Ascii.eqb c sep then EmptyString :: split sep s'
      else match split sep s' with
           | piece :: pieces => String c piece :: pieces
           | [] => [String c EmptyString]
           end
  end.

(** Whether the character occurs in the string. *)
Fixpoint has_char (c : ascii) (s : string) : bool :=
  match s with
  | EmptyString => false
  | String c' s' => Ascii.eqb c' c || has_char c s'
  end.

(** [hay.includes(needle)]. *)
Fixpoint includes (needle hay : string) : bool :=
  String.prefix needle hay ||
  match hay with
  | EmptyString => false
  | String _ hay' => includes needle hay'
  end.

(** [v || d] for a string option that may be absent. *)
Definition js_or_string (v : option string) (d : string) : string :=
  match v with
  | Some s => if String.eqb s EmptyString then d else s
  | None => d
  end.

Definition no_api_key_message : string :=
  "Error: Gemini API Key is not configured. Please add your API key in the panel options."%string.

Definition deprecated_model_message : string :=
  ("Error: The specified Gemini model has been deprecated. Please update your panel configuration to use "
   ++ dq ++ "gemini-1.5-flash" ++ dq ++ " or " ++ dq ++ "gemini-1.5-pro" ++ dq
   ++ " instead.")%string.

(** [err instanceof Error ? err.message : String(err)]. *)
Definition error_text (err : thrown) : string :=
  if instanceof_Error err then message err else to_String err.

(** [analyzeWithGemini(screenshot, promptText)], with the two option
    fields it closes over ([options.apiKey], [options.model]) and the
    client as arguments.  The value is what the returned promise resolves
    to; the [console] calls are left out. *)
Definition analyzeWithGemini (apiKey model : option string) (api : Gemini)
  (screenshot promptText : string) : string :=
  match apiKey with
  | None => no_api_key_message
  | Some key =>
      if String.eqb key EmptyString then no_api_key_message
      else
        let modelToUse := js_or_string model "gemini-1.5-flash" in
        match api key modelToUse promptText
                (nth_error (split ","%char screenshot) 1) with
        | Returns text => text
        | Throws error =>
            if includes "deprecated" (to_String error) then
              deprecated_model_message
            else
              ("Error analyzing dashboard: " ++ error_text error)%string
        end
  end.

(** ** The click handler on the component's state *)

(** The six [useState] cells and [rateLimiterRef.current]. *)
Record PanelState : Type := mkPanelState {
  buttonText : string;
  buttonEnabled : bool;
  analysisText : string;
  selectedOption : string;
  prompt : string;
  rateInfo : string;
  rateLimiterRef : RateLimiter
}.

Definition setButtonText (v : string) (st : PanelState) : PanelState :=
  mkPanelState v (buttonEnabled st) (analysisText st) (selectedOption st)
    (prompt st) (rateInfo st) (rateLimiterRef st).

Definition setButtonEnabled (v : bool) (st : PanelState) : PanelState :=
  mkPanelState (buttonText st) v (analysisText st) (selectedOption st)
    (prompt st) (rateInfo st) (rateLimiterRef st).

Definition setAnalysisText (v : string) (st : PanelState) : PanelState :=
  mkPanelState (buttonText st) (buttonEnabled st) v (selectedOption st)
    (prompt st) (rateInfo st) (rateLimiterRef st).

Definition setRateInfo (v : string) (st : PanelState) : PanelState :=
  mkPanelState (buttonText st) (buttonEnabled st) (analysisText st)
    (selectedOption st) (prompt st) v (rateLimiterRef st).

(** Run a limiter method on [rateLimiterRef.current]. *)
Definition onLimiter {A : Type} (m : Method A) (st : PanelState)
  : A * PanelState :=
  let (a, l) := m (rateLimiterRef st) in
  (a, mkPanelState (buttonText st) (buttonEnabled st) (analysisText st)
        (selectedOption st) (prompt st) (rateInfo st) l).

(** A number interpolated into a template literal (an integer prints in
    decimal, with a leading minus sign when negative). *)
Definition show_int (z : Z) : string := NilZero.string_of_int (Z.to_int z).

(** The whole of [onButtonClick], as the component state it leaves once
    the handler has run to its end.  [html2canvas] is how the screenshot
    ([html2canvas(...)] followed by [canvas.toDataURL]) ends: with the
    data URL, or throwing.  [t1] and [t2] are the clock readings of the
    guard and of the method called after it. *)
Definition onButtonClick_panel (apiKey model : option string) (api : Gemini)
  (html2canvas : outcome string) (t1 t2 : Z) (st : PanelState) : PanelState :=
  let (allowed, st) := onLimiter (canMakeCall t1) st in
  if negb allowed then
    let (waitTime, st) := onLimiter (getTimeUntilNextCallAllowed t2) st in
    let waitSeconds := Math_ceil_div waitTime 1000 in
    setRateInfo ("Rate limit reached. Please wait " ++ show_int waitSeconds
                 ++ " seconds before trying again.")%string st
  else
    let st := setButtonText "Analysing..." st in
    let st := setButtonEnabled false st in
    let st := setRateInfo EmptyString st in
    let (_, st) := onLimiter (recordCall t2) st in
    let st :=
      match html2canvas with
      | Returns dataUrl =>
          let response :=
            analyzeWithGemini apiKey model api dataUrl (prompt st) in
          setAnalysisText response st
      | Throws err =>
          setAnalysisText ("Error: " ++ error_text err)%string st
      end in
    let st := setButtonText "Analyse" st in
    setButtonEnabled true st.

(** ** Basic facts *)

Ltac method_unfold :=
  unfold canMakeCall, recordCall, getTimeUntilNextCallAllowed, onButtonClick,
    when, bind, ret, this, set_lastCallTime, set_callsInWindow,
    set_windowStartTime, new_RateLimiter in *;
  cbn [fst snd lastCallTime callsInWindow windowStartTime maxCallsPerMinute
       minTimeBetweenCalls] in *.

(** Turn the boolean comparisons of the goal into arithmetic facts. *)
Ltac split_tests :=
  repeat match goal with
  | |- context [?a >? ?b] => rewrite (Z.gtb_ltb a b)
  | |- context [?a >=? ?b] => rewrite (Z.geb_leb a b)
  | |- context [?a <? ?b] => destruct (Z.ltb_spec a b)
  | |- context [?a <=? ?b] => destruct (Z.leb_spec a b)
  end;
  cbn [fst snd andb lastCallTime callsInWindow windowStartTime
       maxCallsPerMinute minTimeBetweenCalls] in *.

(** The two branches of [canMakeCall], with the state each leaves. *)
Lemma canMakeCall_rollover (now : Z) (s : RateLimiter) :
  60000 < now - windowStartTime s ->
  canMakeCall now s =
  ((0 <? maxCallsPerMinute s) && (now - lastCallTime s >=? minTimeBetweenCalls s),
   mkRateLimiter (lastCallTime s) 0 now
     (maxCallsPerMinute s) (minTimeBetweenCalls s)).
Proof.
  intros H. method_unfold.
  rewrite (Z.gtb_ltb (now - windowStartTime s) 60000).
  destruct (Z.ltb_spec 60000 (now - windowStartTime s)); [reflexivity | lia].
Qed.

Lemma canMakeCall_same_window (now : Z) (s : RateLimiter) :
  now - windowStartTime s <= 60000 ->
  canMakeCall now s =
  ((callsInWindow s <? maxCallsPerMinute s)
   && (now - lastCallTime s >=? minTimeBetweenCalls s), s).
Proof.
  intros H. method_unfold.
  rewrite (Z.gtb_ltb (now - windowStartTime s) 60000).
  destruct (Z.ltb_spec 60000 (now - windowStartTime s)); [lia | ].
  destruct s; reflexivity.
Qed.

Lemma recordCall_eq (now : Z) (s : RateLimiter) :
  recordCall now s =
  (tt, mkRateLimiter now (callsInWindow s + 1) (windowStartTime s)
         (maxCallsPerMinute s) (minTimeBetweenCalls s)).
Proof. reflexivity. Qed.

Lemma getTimeUntilNextCallAllowed_pure (now : Z) (s : RateLimiter) :
  snd (getTimeUntilNextCallAllowed now s) = s.
Proof.
  method_unfold.
  destruct (callsInWindow s >=? maxCallsPerMinute s); [reflexivity | ].
  destruct (now - lastCallTime s <? minTimeBetweenCalls s); reflexivity.
Qed.

Lemma canMakeCall_cases (now : Z) (s : RateLimiter) :
  (60000 < now - windowStartTime s /\
   snd (canMakeCall now s) =
   mkRateLimiter (lastCallTime s) 0 now
     (maxCallsPerMinute s) (minTimeBetweenCalls s))
  \/ (now - windowStartTime s <= 60000 /\ snd (canMakeCall now s) = s).
Proof.
  destruct (Z.lt_ge_cases 60000 (now - windowStartTime s)) as [H | H].
  - left. split; [exact H | ]. now rewrite canMakeCall_rollover.
  - right. split; [exact H | ]. now rewrite canMakeCall_same_window.
Qed.

(** The configuration never changes. *)
Lemma exec_config (c : call) (s : RateLimiter) :
  maxCallsPerMinute (exec c s) = maxCallsPerMinute s /\
  minTimeBetweenCalls (exec c s) = minTimeBetweenCalls s.
Proof.
  destruct c as [now | now | now]; cbn [exec].
  - destruct (canMakeCall_cases now s) as [[_ ->] | [_ ->]]; now split.
  - now rewrite recordCall_eq.
  - now rewrite getTimeUntilNextCallAllowed_pure.
Qed.

(** The call counter never goes below zero. *)
Lemma exec_calls_nonneg (c : call) (s : RateLimiter) :
  0 <= callsInWindow s -> 0 <= callsInWindow (exec c s).
Proof.
  intros H. destruct c as [now | now | now]; cbn [exec].
  - destruct (canMakeCall_cases now s) as [[_ ->] | [_ ->]];
      cbn [callsInWindow]; lia.
  - rewrite recordCall_eq. cbn [snd callsInWindow]. lia.
  - now rewrite getTimeUntilNextCallAllowed_pure.
Qed.

Lemma reachable_calls_nonneg (s : RateLimiter) :
  reachable s -> 0 <= callsInWindow s.
Proof.
  induction 1 as [maxCalls minTime now | c s _ IH].
  - cbn. lia.
  - now apply exec_calls_nonneg.
Qed.

Lemma reachable_run (cs : list call) (s : RateLimiter) :
  reachable s -> reachable (run cs s).
Proof.
  revert s. induction cs as [| c cs IH]; intros s H; cbn [run].
  - exact H.
  - apply IH. now constructor.
Qed.

Lemma run_config (cs : list call) (s : RateLimiter) :
  maxCallsPerMinute (run cs s) = maxCallsPerMinute s /\
  minTimeBetweenCalls (run cs s) = minTimeBetweenCalls s.
Proof.
  revert s. induction cs as [| c cs IH]; intros s; cbn [run].
  - now split.
  - destruct (IH (exec c s)) as [-> ->]. apply exec_config.
Qed.

(** ** A freshly constructed limiter *)

(** C1, as stated, fails: a limiter built at 1700000000000 with the valid
    configuration (10, 2000000000000) refuses a call at its construction
    time, because [lastCallTime] starts at the timestamp 0 and the spacing
    test measures from there. *)
Lemma fresh_limiter_refuses_under_long_spacing :
  0 < 10 /\ 0 <= 2000000000000 /\ 1700000000000 <= 1700000000000 /\
  fst (canMakeCall 1700000000000
         (new_RateLimiter (Some 10) (Some 2000000000000) 1700000000000))
  = false.
Proof. repeat split; (lia || (vm_compute; reflexivity)). Qed.

(** C1 (amended): for a valid configuration and a clock reading at or
    after construction, a fresh limiter admits the call when
    [minTimeBetweenCalls <= now], and refuses it otherwise; in neither
    case does the check change the fresh instance's counters. *)
Theorem fresh_limiter_canMakeCall (maxCalls minTime t0 now : Z) :
  0 < maxCalls -> 0 <= minTime -> t0 <= now ->
  (minTime <= now ->
   fst (canMakeCall now (new_RateLimiter (Some maxCalls) (Some minTime) t0))
   = true) /\
  (now < minTime ->
   fst (canMakeCall now (new_RateLimiter (Some maxCalls) (Some minTime) t0))
   = false).
Proof.
  intros Hmax Hmin Ht.
  destruct (canMakeCall_cases now
              (new_RateLimiter (Some maxCalls) (Some minTime) t0))
    as [[Hw _] | [Hw _]].
  - rewrite canMakeCall_rollover by exact Hw.
    cbn [fst new_RateLimiter lastCallTime maxCallsPerMinute
         minTimeBetweenCalls].
    rewrite Z.geb_leb, Z.sub_0_r.
    split; intros H.
    + apply andb_true_intro. split; [apply Z.ltb_lt | apply Z.leb_le]; lia.
    + apply andb_false_intro2. apply Z.leb_gt. lia.
  - rewrite canMakeCall_same_window by exact Hw.
    cbn [fst new_RateLimiter lastCallTime callsInWindow maxCallsPerMinute
         minTimeBetweenCalls].
    rewrite Z.geb_leb, Z.sub_0_r.
    split; intros H.
    + apply andb_true_intro. split; [apply Z.ltb_lt | apply Z.leb_le]; lia.
    + apply andb_false_intro2. apply Z.leb_gt. lia.
Qed.

Lemma fresh_limiter_canMakeCall_witness :
  fst (canMakeCall 1700000000500
         (new_RateLimiter (Some 10) (Some 2000) 1700000000000)) = true.
Proof.
  apply (fresh_limiter_canMakeCall 10 2000 1700000000000 1700000000500);
    lia.
Defined.

(** ** Frame conditions *)

(** C10: for every state and clock reading, [recordCall] stores the
    reading in [lastCallTime], adds exactly one to [callsInWindow] and
    leaves [windowStartTime], [maxCallsPerMinute] and
    [minTimeBetweenCalls] alone; no window reset happens, however long ago
    the window started. *)
Theorem recordCall_effect (now : Z) (s : RateLimiter) :
  let s' := snd (recordCall now s) in
  lastCallTime s' = now /\
  callsInWindow s' = callsInWindow s + 1 /\
  windowStartTime s' = windowStartTime s /\
  maxCallsPerMinute s' = maxCallsPerMinute s /\
  minTimeBetweenCalls s' = minTimeBetweenCalls s.
Proof. rewrite recordCall_eq. cbn. repeat split. Qed.

(** C8: for every state and clock reading, [canMakeCall] leaves
    [lastCallTime] unchanged and leaves [callsInWindow] unchanged unless
    more than 60000 ms separate the reading from [windowStartTime], in
    which case it becomes 0; [getTimeUntilNextCallAllowed] returns the
    instance exactly as it found it. *)
Theorem checks_frame (now : Z) (s : RateLimiter) :
  lastCallTime (snd (canMakeCall now s)) = lastCallTime s /\
  callsInWindow (snd (canMakeCall now s)) =
    (if now - windowStartTime s >? 60000 then 0 else callsInWindow s) /\
  snd (getTimeUntilNextCallAllowed now s) = s.
Proof.
  rewrite Z.gtb_ltb.
  split; [ | split ].
  - destruct (canMakeCall_cases now s) as [[_ ->] | [_ ->]]; reflexivity.
  - destruct (canMakeCall_cases now s) as [[H ->] | [H ->]];
      destruct (Z.ltb_spec 60000 (now - windowStartTime s));
      cbn [callsInWindow]; (reflexivity || lia).
  - apply getTimeUntilNextCallAllowed_pure.
Qed.

(** ** Repeating the check *)

Lemma canMakeCall_again (now : Z) (s : RateLimiter) :
  canMakeCall now (snd (canMakeCall now s)) = canMakeCall now s.
Proof.
  destruct (canMakeCall_cases now s) as [[H E] | [H E]].
  - rewrite E, (canMakeCall_rollover now s H).
    rewrite canMakeCall_same_window by (cbn [windowStartTime]; lia).
    reflexivity.
  - rewrite E. destruct (canMakeCall now s) as [b s0]. reflexivity.
Qed.

Lemma canMakeCall_times_settled (n : nat) (now : Z) (s : RateLimiter) :
  canMakeCall_times n now (snd (canMakeCall now s)) =
  (repeat (fst (canMakeCall now s)) n, snd (canMakeCall now s)).
Proof.
  induction n as [| n IH]; cbn [canMakeCall_times repeat].
  - reflexivity.
  - rewrite canMakeCall_again.
    destruct (canMakeCall now s) as [b s1] eqn:E. cbn [fst snd] in *.
    now rewrite IH.
Qed.

(** C6: for every state and clock reading, any number of consecutive
    [canMakeCall] invocations with that same reading all return the
    boolean the first one returned, and the instance after the last of
    them is the instance the first one left: only the first can have
    reset the window. *)
Theorem canMakeCall_idempotent (n : nat) (now : Z) (s : RateLimiter) :
  canMakeCall_times (S n) now s =
  (repeat (fst (canMakeCall now s)) (S n), snd (canMakeCall now s)).
Proof.
  cbn [canMakeCall_times repeat].
  pose proof (canMakeCall_times_settled n now s) as H.
  destruct (canMakeCall now s) as [b s1]. cbn [fst snd] in *.
  now rewrite H.
Qed.

(** ** The advised waiting time *)

(** The sign of the advised wait: it is negative exactly when the call
    budget is used up and the window started more than 60000 ms ago. *)
Lemma getTimeUntilNextCallAllowed_negative_iff (now : Z) (s : RateLimiter) :
  fst (getTimeUntilNextCallAllowed now s) < 0 <->
  maxCallsPerMinute s <= callsInWindow s /\ 60000 < now - windowStartTime s.
Proof.
  method_unfold. split_tests; lia.
Qed.

(** C2 fails on the code.  A limiter built at 1700000000000 for one call
    per minute: the first click is admitted and recorded; a click 60000 ms
    later is refused without a window reset (60000 is not more than
    60000), and the wait computed one millisecond after that refusal is
    -1.  Away from the panel's click handler, asking 70000 ms after the
    recorded call gives -10000. *)
Theorem getTimeUntilNextCallAllowed_can_be_negative :
  let s0 := new_RateLimiter (Some 1) (Some 2000) 1700000000000 in
  let s1 := snd (onButtonClick 1700000000000 1700000000000 s0) in
  fst (onButtonClick 1700000000000 1700000000000 s0) = Proceeds /\
  s1 = run [CanMakeCall 1700000000000; RecordCall 1700000000000] s0 /\
  onButtonClick 1700000060000 1700000060001 s1 = (RateLimited (-1), s1) /\
  fst (getTimeUntilNextCallAllowed 1700000070000 s1) = -10000.
Proof. vm_compute. repeat split. Qed.

(** C3, as stated, fails: with one call per minute, after the call
    recorded at 1700000000000 the wait advised at 1700000001000 is
    59000 ms, and at 1700000060000 the check still refuses. *)
Lemma advised_wait_too_short_when_window_full :
  let cs := [CanMakeCall 1700000000000; RecordCall 1700000000000] in
  let s := run cs (new_RateLimiter (Some 1) (Some 2000) 1700000000000) in
  let now := 1700000001000 in
  chronological 1700000000000 (cs ++ [GetTimeUntilNextCallAllowed now]) = true /\
  reachable s /\
  fst (getTimeUntilNextCallAllowed now s) = 59000 /\
  fst (canMakeCall (now + fst (getTimeUntilNextCallAllowed now s))
         (snd (getTimeUntilNextCallAllowed now s))) = false.
Proof.
  split; [vm_compute; reflexivity | ].
  split; [apply reachable_run; constructor | ].
  split; vm_compute; reflexivity.
Qed.

(** C3 (amended): for every reachable state whose call budget is not used
    up ([callsInWindow < maxCallsPerMinute]) and every clock reading, the
    check made after waiting exactly the advised time, with nothing
    recorded in between, admits the call. *)
Theorem canMakeCall_after_advised_wait (now : Z) (s : RateLimiter) :
  reachable s ->
  callsInWindow s < maxCallsPerMinute s ->
  fst (canMakeCall (now + fst (getTimeUntilNextCallAllowed now s))
         (snd (getTimeUntilNextCallAllowed now s))) = true.
Proof.
  intros Hr Hlt. apply reachable_calls_nonneg in Hr.
  rewrite getTimeUntilNextCallAllowed_pure.
  set (w := fst (getTimeUntilNextCallAllowed now s)).
  assert (Hw : minTimeBetweenCalls s <= now + w - lastCallTime s).
  { subst w. method_unfold. split_tests; lia. }
  destruct (canMakeCall_cases (now + w) s) as [[H _] | [H _]].
  - rewrite canMakeCall_rollover by exact H. cbn [fst].
    rewrite Z.geb_leb.
    apply andb_true_intro. split; [apply Z.ltb_lt | apply Z.leb_le]; lia.
  - rewrite canMakeCall_same_window by exact H. cbn [fst].
    rewrite Z.geb_leb.
    apply andb_true_intro. split; [apply Z.ltb_lt | apply Z.leb_le]; lia.
Qed.

Lemma canMakeCall_after_advised_wait_witness :
  fst (canMakeCall
         (1700000001000 +
          fst (getTimeUntilNextCallAllowed 1700000001000
                 (exec (RecordCall 1700000000000)
                    (new_RateLimiter (Some 10) (Some 2000) 1700000000000))))
         (snd (getTimeUntilNextCallAllowed 1700000001000
                 (exec (RecordCall 1700000000000)
                    (new_RateLimiter (Some 10) (Some 2000) 1700000000000)))))
  = true.
Proof.
  apply canMakeCall_after_advised_wait.
  - apply reach_exec, reach_new.
  - cbn. lia.
Defined.

(** ** A used-up window *)

(** Invocations whose clock readings lie within 60000 ms of the window
    start never move the window, and the counter grows by the number of
    recorded calls. *)
Lemma run_within_window (cs : list call) (s : RateLimiter) :
  Forall (fun c => call_time c - windowStartTime s <= 60000) cs ->
  windowStartTime (run cs s) = windowStartTime s /\
  callsInWindow (run cs s) = callsInWindow s + recorded cs.
Proof.
  revert s. induction cs as [| c cs IH]; intros s Hall; cbn [run recorded].
  - split; [reflexivity | lia].
  - inversion Hall as [| c' cs' Hc Hcs]; subst.
    assert (Hws : windowStartTime (exec c s) = windowStartTime s).
    { destruct c as [now | now | now]; cbn [exec call_time] in *.
      - now rewrite canMakeCall_same_window.
      - now rewrite recordCall_eq.
      - now rewrite getTimeUntilNextCallAllowed_pure. }
    assert (Hex : callsInWindow (exec c s) + recorded cs =
                  callsInWindow s + recorded (c :: cs)).
    { destruct c as [now | now | now]; cbn [exec call_time recorded] in *.
      - now rewrite canMakeCall_same_window.
      - rewrite recordCall_eq. cbn [snd callsInWindow]. lia.
      - now rewrite getTimeUntilNextCallAllowed_pure. }
    destruct (IH (exec c s)) as [IHw IHc].
    { rewrite Hws. exact Hcs. }
    split; [now rewrite IHw | ].
    rewrite IHc. exact Hex.
Qed.

(** C4: take a limiter built at [t0] and any history of invocations whose
    clock readings are all within 60000 ms of [t0] and that records
    exactly [maxCalls] calls (the spacing of the calls plays no part).
    Then the window still starts at [t0]; every check at a reading within
    60000 ms of the window start returns false and changes nothing; every
    check more than 60000 ms after it restarts the window at that reading
    with the counter at 0.  Scenario B is the instance (2, 0) built at 0
    with two calls recorded at 0: the check at 0 refuses, the check at
    60001 admits. *)
Theorem full_window_blocks_until_rollover
  (maxCalls minTime t0 : Z) (cs : list call) :
  Forall (fun c => call_time c - t0 <= 60000) cs ->
  recorded cs = maxCalls ->
  let s := run cs (new_RateLimiter (Some maxCalls) (Some minTime) t0) in
  windowStartTime s = t0 /\
  (forall now, now - windowStartTime s <= 60000 ->
     canMakeCall now s = (false, s)) /\
  (forall now, 60000 < now - windowStartTime s ->
     callsInWindow (snd (canMakeCall now s)) = 0 /\
     windowStartTime (snd (canMakeCall now s)) = now) /\
  (let b := run [RecordCall 0; RecordCall 0]
              (new_RateLimiter (Some 2) (Some 0) 0) in
   callsInWindow b = 2 /\
   fst (canMakeCall 0 b) = false /\
   fst (canMakeCall 60001 b) = true /\
   callsInWindow (snd (canMakeCall 60001 b)) = 0).
Proof.
  intros Hall Hrec s.
  destruct (run_within_window cs
              (new_RateLimiter (Some maxCalls) (Some minTime) t0) Hall)
    as [Hws Hcalls].
  destruct (run_config cs (new_RateLimiter (Some maxCalls) (Some minTime) t0))
    as [Hmax _].
  fold s in Hws, Hcalls, Hmax.
  cbn [new_RateLimiter windowStartTime callsInWindow maxCallsPerMinute]
    in Hws, Hcalls, Hmax.
  split; [exact Hws | ].
  split; [ | split ].
  - intros now Hnow. rewrite canMakeCall_same_window by exact Hnow.
    replace (callsInWindow s <? maxCallsPerMinute s) with false;
      [reflexivity | ].
    symmetry. apply Z.ltb_ge. lia.
  - intros now Hnow. rewrite canMakeCall_rollover by exact Hnow.
    cbn [snd callsInWindow windowStartTime]. split; reflexivity.
  - vm_compute. repeat split.
Qed.

Lemma full_window_blocks_until_rollover_witness :
  let s := run [CanMakeCall 1700000000000; RecordCall 1700000000000;
                CanMakeCall 1700000002000; RecordCall 1700000002000]
             (new_RateLimiter (Some 2) (Some 2000) 1700000000000) in
  canMakeCall 1700000060000 s = (false, s) /\
  callsInWindow (snd (canMakeCall 1700000060001 s)) = 0.
Proof.
  intros s.
  destruct (full_window_blocks_until_rollover 2 2000 1700000000000
              [CanMakeCall 1700000000000; RecordCall 1700000000000;
               CanMakeCall 1700000002000; RecordCall 1700000002000])
    as (Hws & Hblock & Hroll & _).
  - repeat constructor; cbn; lia.
  - reflexivity.
  - fold s in Hws, Hblock, Hroll. split.
    + apply Hblock. rewrite Hws. lia.
    + apply Hroll. rewrite Hws. lia.
Defined.

(** ** A non-positive call budget *)

(** C5: once a limiter has been built with a non-positive
    [maxCallsPerMinute], every check returns false, at every clock reading
    and after any further history of invocations (window rollovers
    included); no error is raised, the method simply answers false. *)
Theorem nonpositive_budget_blocks_forever
  (s : RateLimiter) (cs : list call) (now : Z) :
  reachable s ->
  maxCallsPerMinute s <= 0 ->
  fst (canMakeCall now (run cs s)) = false.
Proof.
  intros Hr Hmax.
  pose proof (reachable_calls_nonneg _ (reachable_run cs s Hr)) as Hc.
  destruct (run_config cs s) as [Hcfg _].
  destruct (canMakeCall_cases now (run cs s)) as [[H _] | [H _]].
  - rewrite canMakeCall_rollover by exact H. cbn [fst].
    apply andb_false_intro1. apply Z.ltb_ge. lia.
  - rewrite canMakeCall_same_window by exact H. cbn [fst].
    apply andb_false_intro1. apply Z.ltb_ge. lia.
Qed.

Lemma nonpositive_budget_blocks_forever_witness :
  fst (canMakeCall 1700000200000
         (run [CanMakeCall 1700000070000; RecordCall 1700000070000]
            (new_RateLimiter (Some 0) (Some 2000) 1700000000000))) = false.
Proof.
  apply nonpositive_budget_blocks_forever.
  - apply reach_new.
  - cbn. lia.
Defined.

(** ** The window bound *)

(** C7, as stated, fails for the recorded call: on a limiter built at
    1700000000000 with the default configuration, a click whose guard
    reads the clock 60000 ms later is admitted without a window reset, and
    the call it records one millisecond after that leaves the window start
    60001 ms behind the clock. *)
Lemma window_bound_broken_after_recordCall :
  let s0 := new_RateLimiter None None 1700000000000 in
  let s1 := snd (onButtonClick 1700000060000 1700000060001 s0) in
  fst (onButtonClick 1700000060000 1700000060001 s0) = Proceeds /\
  s1 = snd (recordCall 1700000060001 (snd (canMakeCall 1700000060000 s0))) /\
  windowStartTime s1 <= 1700000060001 /\
  ~ (1700000060001 - windowStartTime s1 <= 60000).
Proof.
  split; [vm_compute; reflexivity | ].
  split; [vm_compute; reflexivity | ].
  cbn. lia.
Qed.

(** C7 (amended): for every state and clock reading, right after
    [canMakeCall] the reading is at most 60000 ms past [windowStartTime].
    [recordCall] does not touch [windowStartTime]; right after a call
    recorded at the very reading of the check before it, the bound still
    holds. *)
Theorem window_bound_after_check (now : Z) (s : RateLimiter) :
  now - windowStartTime (snd (canMakeCall now s)) <= 60000 /\
  windowStartTime (snd (recordCall now s)) = windowStartTime s /\
  now - windowStartTime (snd (recordCall now (snd (canMakeCall now s))))
    <= 60000.
Proof.
  assert (H : now - windowStartTime (snd (canMakeCall now s)) <= 60000).
  { destruct (canMakeCall_cases now s) as [[_ ->] | [Hw ->]];
      cbn [windowStartTime]; lia. }
  split; [exact H | ].
  split; [reflexivity | ].
  rewrite recordCall_eq. cbn [snd windowStartTime]. exact H.
Qed.

(** ** The limiter the panel builds *)

(** C9: at mount and on every option change the panel builds the same
    limiter from [options.maxCallsPerMinute || 10] and
    [options.minTimeBetweenCalls || 2000]: a falsy option (0, NaN or
    absent) gives the default, a non-zero number is taken as it is, and so
    the limiter's [maxCallsPerMinute] is never 0 (nor is its
    [minTimeBetweenCalls]). *)
Theorem panel_limiter_defaults (options : GeminiAnalyzerOptions) (now : Z) :
  let l := panel_initial_limiter options now in
  panel_updated_limiter options now = l /\
  l = new_RateLimiter (Some (js_or (opt_maxCallsPerMinute options) 10))
        (Some (js_or (opt_minTimeBetweenCalls options) 2000)) now /\
  (truthy (opt_maxCallsPerMinute options) = false ->
     maxCallsPerMinute l = 10) /\
  (truthy (opt_minTimeBetweenCalls options) = false ->
     minTimeBetweenCalls l = 2000) /\
  (forall z, opt_maxCallsPerMinute options = JSNum z -> z <> 0 ->
     maxCallsPerMinute l = z) /\
  (forall z, opt_minTimeBetweenCalls options = JSNum z -> z <> 0 ->
     minTimeBetweenCalls l = z) /\
  maxCallsPerMinute l <> 0 /\
  minTimeBetweenCalls l <> 0.
Proof.
  destruct options as [mx mn].
  cbn [panel_initial_limiter panel_updated_limiter new_RateLimiter
       opt_maxCallsPerMinute opt_minTimeBetweenCalls maxCallsPerMinute
       minTimeBetweenCalls].
  split; [reflexivity | ]. split; [reflexivity | ].
  repeat split.
  - destruct mx as [| | z]; cbn; try reflexivity.
    destruct (Z.eqb_spec z 0); cbn; [reflexivity | discriminate].
  - destruct mn as [| | z]; cbn; try reflexivity.
    destruct (Z.eqb_spec z 0); cbn; [reflexivity | discriminate].
  - intros z -> Hz. cbn.
    destruct (Z.eqb_spec z 0); cbn; [contradiction | reflexivity].
  - intros z -> Hz. cbn.
    destruct (Z.eqb_spec z 0); cbn; [contradiction | reflexivity].
  - destruct mx as [| | z]; cbn; try discriminate.
    destruct (Z.eqb_spec z 0); cbn; [discriminate | assumption].
  - destruct mn as [| | z]; cbn; try discriminate.
    destruct (Z.eqb_spec z 0); cbn; [discriminate | assumption].
Qed.

Lemma panel_limiter_defaults_witness :
  maxCallsPerMinute
    (panel_initial_limiter (mkOptions (JSNum 0) JSNaN) 1700000000000) = 10 /\
  minTimeBetweenCalls
    (panel_initial_limiter (mkOptions (JSNum 0) JSNaN) 1700000000000) = 2000 /\
  maxCallsPerMinute
    (panel_initial_limiter (mkOptions (JSNum 3) (JSNum 500)) 1700000000000)
  = 3.
Proof.
  destruct (panel_limiter_defaults (mkOptions (JSNum 0) JSNaN) 1700000000000)
    as (_ & _ & Hmax & Hmin & _).
  destruct (panel_limiter_defaults (mkOptions (JSNum 3) (JSNum 500))
              1700000000000) as (_ & _ & _ & _ & Hnum & _).
  split; [apply Hmax; reflexivity | ].
  split; [apply Hmin; reflexivity | ].
  apply Hnum; [reflexivity | lia].
Defined.

(** ** Further properties of the limiter *)

(** X1: a recorded call closes the gate for the spacing interval.  On any
    state, after [recordCall] reads the clock at [t], every check whose
    reading is less than [minTimeBetweenCalls] past [t] refuses; with a
    positive spacing this includes a check at [t] itself. *)
Theorem canMakeCall_refuses_within_spacing (t now : Z) (s : RateLimiter) :
  now - t < minTimeBetweenCalls s ->
  fst (canMakeCall now (snd (recordCall t s))) = false.
Proof.
  intros H. rewrite recordCall_eq. cbn [snd].
  match goal with |- fst (canMakeCall now ?s1) = false =>
    destruct (canMakeCall_cases now s1) as [[Hw _] | [Hw _]];
    [ rewrite canMakeCall_rollover by exact Hw
    | rewrite canMakeCall_same_window by exact Hw ]
  end;
    cbn [fst lastCallTime minTimeBetweenCalls];
    apply andb_false_intro2; rewrite Z.geb_leb; apply Z.leb_gt; lia.
Qed.

Lemma canMakeCall_refuses_within_spacing_witness :
  fst (canMakeCall 1700000001999
         (snd (recordCall 1700000000000
                 (new_RateLimiter None None 1700000000000)))) = false.
Proof.
  apply canMakeCall_refuses_within_spacing. cbn. lia.
Defined.

(** X2: a positive call budget never blocks for good.  On any state with
    [maxCallsPerMinute > 0], every check whose reading is more than
    60000 ms past the window start and at least [minTimeBetweenCalls]
    past the last recorded call admits, and leaves a fresh window
    starting at that reading. *)
Theorem canMakeCall_admits_after_rollover (now : Z) (s : RateLimiter) :
  0 < maxCallsPerMinute s ->
  60000 < now - windowStartTime s ->
  minTimeBetweenCalls s <= now - lastCallTime s ->
  fst (canMakeCall now s) = true /\
  callsInWindow (snd (canMakeCall now s)) = 0 /\
  windowStartTime (snd (canMakeCall now s)) = now.
Proof.
  intros Hmax Hw Hsp. rewrite canMakeCall_rollover by exact Hw.
  cbn [fst snd callsInWindow windowStartTime].
  split; [ | split; reflexivity ].
  apply andb_true_intro.
  split; [apply Z.ltb_lt | rewrite Z.geb_leb; apply Z.leb_le]; lia.
Qed.

Lemma canMakeCall_admits_after_rollover_witness :
  fst (canMakeCall 1700000060001
         (run [RecordCall 1700000000000]
            (new_RateLimiter (Some 1) (Some 2000) 1700000000000))) = true.
Proof.
  apply canMakeCall_admits_after_rollover; cbn; lia.
Defined.

(** X3: the check and the advice agree at one clock reading.  Take any
    state, run [canMakeCall] and then [getTimeUntilNextCallAllowed] with
    the same reading.  If the check admitted, the advised wait is 0.  If
    it refused, the advised wait is not negative, and it is 0 only when
    the call budget is used up and the reading is exactly 60000 ms past
    the window start. *)
Theorem advice_agrees_with_check (now : Z) (s : RateLimiter) :
  let s' := snd (canMakeCall now s) in
  let w := fst (getTimeUntilNextCallAllowed now s') in
  (fst (canMakeCall now s) = true -> w = 0) /\
  (fst (canMakeCall now s) = false ->
   0 <= w /\
   (w = 0 ->
    maxCallsPerMinute s' <= callsInWindow s' /\
    now = windowStartTime s' + 60000)).
Proof.
  destruct (canMakeCall_cases now s) as [[Hw E] | [Hw E]].
  - rewrite (canMakeCall_rollover now s Hw). cbn [fst snd].
    method_unfold. split_tests; split; intros; try discriminate; lia.
  - rewrite (canMakeCall_same_window now s Hw). cbn [fst snd].
    method_unfold. split_tests; split; intros; try discriminate; lia.
Qed.

Lemma advice_agrees_with_check_witness :
  fst (getTimeUntilNextCallAllowed 1700000000000
         (snd (canMakeCall 1700000000000
                 (new_RateLimiter None None 1700000000000)))) = 0.
Proof.
  apply (advice_agrees_with_check 1700000000000
           (new_RateLimiter None None 1700000000000)).
  vm_compute. reflexivity.
Defined.

(** X4: while nothing else is invoked, the advised wait runs down with
    the clock: [d] milliseconds later it is no larger than before and no
    more than [d] smaller. *)
Theorem advice_runs_down (now d : Z) (s : RateLimiter) :
  0 <= d ->
  fst (getTimeUntilNextCallAllowed (now + d) s)
    <= fst (getTimeUntilNextCallAllowed now s) /\
  fst (getTimeUntilNextCallAllowed now s) - d
    <= fst (getTimeUntilNextCallAllowed (now + d) s).
Proof.
  intros Hd. method_unfold. split_tests; lia.
Qed.

Lemma advice_runs_down_witness :
  fst (getTimeUntilNextCallAllowed (1700000000500 + 700)
         (snd (recordCall 1700000000000
                 (new_RateLimiter None None 1700000000000))))
  <= fst (getTimeUntilNextCallAllowed 1700000000500
            (snd (recordCall 1700000000000
                    (new_RateLimiter None None 1700000000000)))).
Proof.
  apply (advice_runs_down 1700000000500 700). lia.
Defined.

(** ** Properties of click histories *)

(** The two ways a click goes. *)
Lemma onButtonClick_eq (t1 t2 : Z) (s : RateLimiter) :
  onButtonClick t1 t2 s =
  if fst (canMakeCall t1 s)
  then (Proceeds, snd (recordCall t2 (snd (canMakeCall t1 s))))
  else (RateLimited
          (fst (getTimeUntilNextCallAllowed t2 (snd (canMakeCall t1 s)))),
        snd (canMakeCall t1 s)).
Proof.
  unfold onButtonClick, bind at 1.
  destruct (canMakeCall t1 s) as [b s1]. cbn [fst snd].
  destruct b; cbn [negb].
  - unfold bind, ret. destruct (recordCall t2 s1) as [u s2]. reflexivity.
  - unfold bind, ret.
    pose proof (getTimeUntilNextCallAllowed_pure t2 s1) as Hp.
    destruct (getTimeUntilNextCallAllowed t2 s1) as [w s2].
    cbn [fst snd] in *. now subst s2.
Qed.

(** What an admitting check has established, and what any check keeps. *)
Lemma canMakeCall_true_inv (now : Z) (s : RateLimiter) :
  fst (canMakeCall now s) = true ->
  minTimeBetweenCalls s <= now - lastCallTime s /\
  callsInWindow (snd (canMakeCall now s)) < maxCallsPerMinute s.
Proof.
  destruct (canMakeCall_cases now s) as [[Hw _] | [Hw _]];
    [ rewrite canMakeCall_rollover by exact Hw
    | rewrite canMakeCall_same_window by exact Hw ];
    cbn [fst snd callsInWindow]; intros H;
    apply andb_prop in H; destruct H as [H1 H2];
    apply Z.ltb_lt in H1; rewrite Z.geb_leb in H2; apply Z.leb_le in H2;
    split; assumption.
Qed.

Lemma canMakeCall_keeps (now : Z) (s : RateLimiter) :
  lastCallTime (snd (canMakeCall now s)) = lastCallTime s /\
  maxCallsPerMinute (snd (canMakeCall now s)) = maxCallsPerMinute s /\
  minTimeBetweenCalls (snd (canMakeCall now s)) = minTimeBetweenCalls s /\
  (0 <= callsInWindow s -> 0 <= callsInWindow (snd (canMakeCall now s))).
Proof.
  destruct (canMakeCall_cases now s) as [[_ ->] | [_ ->]];
    cbn [lastCallTime maxCallsPerMinute minTimeBetweenCalls callsInWindow];
    repeat split; (assumption || lia).
Qed.








(** X7: admitted clicks are spaced.  In any sequence of clicks on any
    limiter, the guard reading of each admitted click is at least
    [minTimeBetweenCalls] after the reading at which the previous admitted
    click recorded its call (for the first one, after the limiter's
    [lastCallTime]). *)
Theorem admitted_clicks_well_spaced (cs : list (Z * Z)) (s : RateLimiter) :
  well_spaced (lastCallTime s) (minTimeBetweenCalls s) (admitted cs s).
Proof.
  revert s. induction cs as [| [t1 t2] cs IH]; intros s; cbn [admitted].
  - exact I.
  - rewrite onButtonClick_eq.
    destruct (canMakeCall_keeps t1 s) as (Hlast & _ & Hmin & _).
    destruct (fst (canMakeCall t1 s)) eqn:Hb.
    + apply canMakeCall_true_inv in Hb. destruct Hb as [Hsp _].
      cbn [well_spaced]. split; [exact Hsp | ].
      pose proof (IH (snd (recordCall t2 (snd (canMakeCall t1 s))))) as IH2.
      replace (lastCallTime (snd (recordCall t2 (snd (canMakeCall t1 s)))))
        with t2 in IH2 by reflexivity.
      replace (minTimeBetweenCalls
                 (snd (recordCall t2 (snd (canMakeCall t1 s)))))
        with (minTimeBetweenCalls s) in IH2
        by (rewrite recordCall_eq; cbn [snd minTimeBetweenCalls];
            symmetry; exact Hmin).
      exact IH2.
    + specialize (IH (snd (canMakeCall t1 s))).
      rewrite Hlast, Hmin in IH. exact IH.
Qed.

Lemma admitted_none_without_budget (cs : list (Z * Z)) (s : RateLimiter) :
  0 <= callsInWindow s -> maxCallsPerMinute s <= 0 -> admitted cs s = [].
Proof.
  revert s. induction cs as [| [t1 t2] cs IH]; intros s Hc Hmax;
    cbn [admitted].
  - reflexivity.
  - rewrite onButtonClick_eq.
    destruct (canMakeCall_keeps t1 s) as (_ & Hm & _ & Hnn).
    destruct (fst (canMakeCall t1 s)) eqn:Hb.
    + apply canMakeCall_true_inv in Hb. specialize (Hnn Hc). lia.
    + apply IH; [apply Hnn; exact Hc | rewrite Hm; exact Hmax].
Qed.

(** X8: a negative [maxCallsPerMinute] option silences the panel.  The
    [||] fallback lets a negative number through, and on the limiter then
    built no click of any sequence, at whatever clock readings, gets past
    the guard. *)
Theorem negative_option_blocks_every_click
  (options : GeminiAnalyzerOptions) (z now : Z) (cs : list (Z * Z)) :
  opt_maxCallsPerMinute options = JSNum z ->
  z < 0 ->
  maxCallsPerMinute (panel_initial_limiter options now) = z /\
  admitted cs (panel_initial_limiter options now) = [] /\
  admitted cs (panel_updated_limiter options now) = [].
Proof.
  intros Hopt Hz.
  assert (Hmax : maxCallsPerMinute (panel_initial_limiter options now) = z).
  { unfold panel_initial_limiter. rewrite Hopt.
    cbn [new_RateLimiter maxCallsPerMinute js_or truthy].
    destruct (Z.eqb_spec z 0); cbn [negb]; [lia | reflexivity]. }
  split; [exact Hmax | ].
  split; apply admitted_none_without_budget;
    try (cbn [panel_initial_limiter panel_updated_limiter new_RateLimiter
              callsInWindow]; lia);
    change (panel_updated_limiter options now)
      with (panel_initial_limiter options now);
    rewrite Hmax; lia.
Qed.

Lemma negative_option_blocks_every_click_witness :
  admitted [(1700000000000, 1700000000001); (1700000090000, 1700000090000)]
    (panel_initial_limiter (mkOptions (JSNum (-1)) JSUndefined)
       1700000000000) = [].
Proof.
  apply (negative_option_blocks_every_click
           (mkOptions (JSNum (-1)) JSUndefined) (-1)); [reflexivity | lia].
Defined.

(** ** The wait the panel displays *)

Lemma Math_ceil_div_1000_bounds (w m : Z) :
  -1000 < w -> w <= Z.max 60000 m ->
  0 <= Math_ceil_div w 1000 <= Z.max 60 (Math_ceil_div m 1000).
Proof.
  unfold Math_ceil_div. intros Hlo Hhi.
  destruct (Z.max_spec 60000 m) as [[Hm E] | [Hm E]]; rewrite E in Hhi;
    destruct (Z.max_spec 60 (- (- m / 1000))) as [[Hc E'] | [Hc E']];
    rewrite E'; clear E E';
    Z.to_euclidean_division_equations; lia.
Qed.

(** X9: the number of seconds shown to a refused click.  Suppose the
    limiter's window start and last recorded call are not in the future of
    the guard's clock reading [t1], and the wait is computed at a reading
    [t2] less than a second after [t1].  If the click is refused, the
    whole seconds the message shows, [Math.ceil(waitTime / 1000)], are
    never negative and never more than the larger of 60 and the spacing
    rounded up to seconds. *)
Theorem displayed_wait_seconds_bounds (t1 t2 w : Z) (s : RateLimiter) :
  windowStartTime s <= t1 ->
  lastCallTime s <= t1 ->
  t1 <= t2 < t1 + 1000 ->
  fst (onButtonClick t1 t2 s) = RateLimited w ->
  0 <= Math_ceil_div w 1000
    <= Z.max 60 (Math_ceil_div (minTimeBetweenCalls s) 1000).
Proof.
  intros Hws Hlast Ht Hout.
  apply Math_ceil_div_1000_bounds;
    rewrite onButtonClick_eq in Hout;
    destruct (fst (canMakeCall t1 s)); cbn [fst] in Hout;
    try discriminate Hout;
    injection Hout as <-;
    destruct (canMakeCall_cases t1 s) as [[Hw ->] | [Hw ->]];
    method_unfold; split_tests; lia.
Qed.

Lemma displayed_wait_seconds_bounds_witness :
  0 <= Math_ceil_div (-1) 1000
    <= Z.max 60
         (Math_ceil_div
            (minTimeBetweenCalls
               (run [CanMakeCall 1700000000000; RecordCall 1700000000000]
                  (new_RateLimiter (Some 1) (Some 2000) 1700000000000)))
            1000).
Proof.
  apply (displayed_wait_seconds_bounds 1700000060000 1700000060001 (-1)
           (run [CanMakeCall 1700000000000; RecordCall 1700000000000]
              (new_RateLimiter (Some 1) (Some 2000) 1700000000000)));
    try (cbn; lia).
  vm_compute. reflexivity.
Defined.

(** ** The request to the model API *)

Lemma split_without_separator (sep : ascii) (s : string) :
  has_char sep s = false -> split sep s = [s].
Proof.
  induction s as [| c s IH]; cbn [has_char split]; intros H.
  - reflexivity.
  - apply orb_false_elim in H. destruct H as [Hc Hs].
    rewrite Hc, (IH Hs). reflexivity.
Qed.

Lemma split_at_first_separator (sep : ascii) (header rest : string) :
  has_char sep header = false ->
  split sep (header ++ String sep rest) = header :: split sep rest.
Proof.
  induction header as [| c h IH]; cbn [has_char split String.append];
    intros H.
  - rewrite Ascii.eqb_refl. reflexivity.
  - apply orb_false_elim in H. destruct H as [Hc Hh].
    rewrite Hc, (IH Hh). reflexivity.
Qed.


(** X11: the image data that reaches the client.  With a non-empty key,
    a screenshot of the form header-comma-payload with no comma in either
    part is sent as its payload, under the configured model name or
    gemini-1.5-flash when none is configured, and the text the client
    returns for that request is the result; a screenshot without any
    comma is sent with the data undefined. *)
Theorem analyzeWithGemini_sends_payload
  (key : string) (model : option string) (api : Gemini)
  (header payload promptText text : string) :
  key <> EmptyString ->
  has_char ","%char header = false ->
  has_char ","%char payload = false ->
  (api key (js_or_string model "gemini-1.5-flash") promptText (Some payload)
     = Returns text ->
   analyzeWithGemini (Some key) model api
     (header ++ String ","%char payload) promptText = text) /\
  (api key (js_or_string model "gemini-1.5-flash") promptText None
     = Returns text ->
   analyzeWithGemini (Some key) model api payload promptText = text).
Proof.
  intros Hk Hh Hp. unfold analyzeWithGemini.
  destruct (String.eqb_spec key EmptyString) as [E | _]; [contradiction | ].
  rewrite (split_at_first_separator _ header payload Hh).
  rewrite (split_without_separator _ payload Hp).
  cbn [nth_error].
  split; intros ->; reflexivity.
Qed.

Lemma analyzeWithGemini_sends_payload_witness :
  analyzeWithGemini (Some "k"%string) None
    (fun _ m _ d =>
       match d with
       | Some p => Returns (m ++ ":" ++ p)%string
       | None => Throws (mkThrown true "no image" "Error: no image")
       end)
    ("data:image/png;base64" ++ String ","%char "iVBORw0KGgo=")%string
    "This image shows a Grafana Dashboard."
  = "gemini-1.5-flash:iVBORw0KGgo="%string.
Proof.
  apply (analyzeWithGemini_sends_payload "k"%string None _
           "data:image/png;base64"%string "iVBORw0KGgo="%string).
  - discriminate.
  - reflexivity.
  - reflexivity.
  - reflexivity.
Defined.

(** ** The click handler on the component's state *)

(** The limiter the whole handler leaves is the one the rate-limit part
    leaves: the screenshot and the client have no say in it. *)
Lemma onButtonClick_panel_limiter
  (apiKey model : option string) (api : Gemini) (html2canvas : outcome string)
  (t1 t2 : Z) (st : PanelState) :
  rateLimiterRef (onButtonClick_panel apiKey model api html2canvas t1 t2 st)
  = snd (onButtonClick t1 t2 (rateLimiterRef st)).
Proof.
  rewrite onButtonClick_eq. unfold onButtonClick_panel, onLimiter.
  destruct (canMakeCall t1 (rateLimiterRef st)) as [b l1].
  cbn [fst snd rateLimiterRef].
  destruct b; cbn [negb].
  - cbn [setRateInfo setButtonEnabled setButtonText rateLimiterRef
         buttonText buttonEnabled analysisText selectedOption prompt rateInfo].
    destruct (recordCall t2 l1) as [u l2]. cbn [snd].
    destruct html2canvas; reflexivity.
  - pose proof (getTimeUntilNextCallAllowed_pure t2 l1) as Hp.
    destruct (getTimeUntilNextCallAllowed t2 l1) as [w l2].
    cbn [snd] in Hp. subst l2. reflexivity.
Qed.

(** X12: an admitted click always ends with the button usable again and
    the call counted.  If the guard admits, then however the screenshot
    and the client end (returning or throwing), the handler leaves the
    button text Analyse, the button enabled and the rate message empty;
    the call has been recorded at [t2]; the selected option and the prompt
    are untouched; and when the screenshot threw, the analysis text begins
    with the word Error. *)
Theorem admitted_click_completes
  (apiKey model : option string) (api : Gemini) (html2canvas : outcome string)
  (t1 t2 : Z) (st : PanelState) :
  fst (canMakeCall t1 (rateLimiterRef st)) = true ->
  let st' := onButtonClick_panel apiKey model api html2canvas t1 t2 st in
  buttonText st' = "Analyse"%string /\
  buttonEnabled st' = true /\
  rateInfo st' = EmptyString /\
  rateLimiterRef st' =
    snd (recordCall t2 (snd (canMakeCall t1 (rateLimiterRef st)))) /\
  lastCallTime (rateLimiterRef st') = t2 /\
  selectedOption st' = selectedOption st /\
  prompt st' = prompt st /\
  (forall err, html2canvas = Throws err ->
     String.prefix "Error" (analysisText st') = true).
Proof.
  intros Hb st'.
  assert (Hl : rateLimiterRef st' =
               snd (recordCall t2 (snd (canMakeCall t1 (rateLimiterRef st))))).
  { subst st'. rewrite onButtonClick_panel_limiter, onButtonClick_eq, Hb.
    reflexivity. }
  assert (Hrest :
    buttonText st' = "Analyse"%string /\ buttonEnabled st' = true /\
    rateInfo st' = EmptyString /\ selectedOption st' = selectedOption st /\
    prompt st' = prompt st /\
    (forall err, html2canvas = Throws err ->
       String.prefix "Error" (analysisText st') = true)).
  { subst st'. unfold onButtonClick_panel, onLimiter.
    destruct (canMakeCall t1 (rateLimiterRef st)) as [b l1].
    cbn [fst] in Hb. subst b. cbn [negb rateLimiterRef setRateInfo
      setButtonEnabled setButtonText buttonText buttonEnabled analysisText
      selectedOption prompt rateInfo].
    destruct (recordCall t2 l1) as [u l2].
    destruct html2canvas as [dataUrl | err0];
      cbn [setAnalysisText setButtonEnabled setButtonText buttonText
           buttonEnabled analysisText selectedOption prompt rateInfo];
      repeat split; intros err E;
      try discriminate E; reflexivity. }
  destruct Hrest as (H1 & H2 & H3 & H4 & H5 & H6).
  repeat split; try assumption.
  rewrite Hl, recordCall_eq. reflexivity.
Qed.

Lemma admitted_click_completes_witness :
  buttonEnabled
    (onButtonClick_panel None None (fun _ _ _ _ => Returns "ok"%string)
       (Throws (mkThrown true "tainted canvas" "Error: tainted canvas"))
       1700000000000 1700000000001
       (mkPanelState "Analyse" true "Please choose" "Summary" "p" EmptyString
          (new_RateLimiter None None 1700000000000))) = true.
Proof.
  apply (admitted_click_completes None None
           (fun _ _ _ _ => Returns "ok"%string)
           (Throws (mkThrown true "tainted canvas" "Error: tainted canvas"))
           1700000000000 1700000000001
           (mkPanelState "Analyse" true "Please choose" "Summary" "p"
              EmptyString (new_RateLimiter None None 1700000000000))).
  vm_compute. reflexivity.
Defined.

(** X13: a refused click only reports.  If the guard refuses, the handler
    leaves the button, the analysis text, the selected option and the
    prompt as they were, records nothing (the limiter is the one the guard
    left), and sets the rate message to the wait rounded up to whole
    seconds; neither the screenshot nor the client has any influence. *)
Theorem refused_click_only_reports
  (apiKey model : option string) (api : Gemini) (html2canvas : outcome string)
  (t1 t2 : Z) (st : PanelState) :
  fst (canMakeCall t1 (rateLimiterRef st)) = false ->
  let l1 := snd (canMakeCall t1 (rateLimiterRef st)) in
  onButtonClick_panel apiKey model api html2canvas t1 t2 st =
  mkPanelState (buttonText st) (buttonEnabled st) (analysisText st)
    (selectedOption st) (prompt st)
    ("Rate limit reached. Please wait "
     ++ show_int
          (Math_ceil_div (fst (getTimeUntilNextCallAllowed t2 l1)) 1000)
     ++ " seconds before trying again.")%string
    l1 /\
  lastCallTime l1 = lastCallTime (rateLimiterRef st).
Proof.
  intros Hb l1. split.
  - subst l1. unfold onButtonClick_panel, onLimiter.
    destruct (canMakeCall t1 (rateLimiterRef st)) as [b l].
    cbn [fst snd] in *. subst b.
    cbn [negb rateLimiterRef buttonText buttonEnabled analysisText
         selectedOption prompt rateInfo].
    pose proof (getTimeUntilNextCallAllowed_pure t2 l) as Hp.
    destruct (getTimeUntilNextCallAllowed t2 l) as [w l2].
    cbn [fst snd] in *. subst l2. reflexivity.
  - subst l1. apply canMakeCall_keeps.
Qed.

Lemma refused_click_only_reports_witness :
  rateInfo
    (onButtonClick_panel None None (fun _ _ _ _ => Returns "ok"%string)
       (Returns "data:image/png;base64,AAAA"%string)
       1700000001000 1700000001000
       (mkPanelState "Analyse" true "old text" "Summary" "p" EmptyString
          (snd (recordCall 1700000000000
                  (new_RateLimiter None None 1700000000000)))))
  = "Rate limit reached. Please wait 1 seconds before trying again."%string.
Proof.
  pose proof (refused_click_only_reports None None
                (fun _ _ _ _ => Returns "ok"%string)
                (Returns "data:image/png;base64,AAAA"%string)
                1700000001000 1700000001000
                (mkPanelState "Analyse" true "old text" "Summary" "p"
                   EmptyString
                   (snd (recordCall 1700000000000
                           (new_RateLimiter None None 1700000000000)))))
    as H.
  destruct H as [H _]; [vm_compute; reflexivity | ].
  rewrite H. vm_compute. reflexivity.
Defined.
